(** * The [python -m tensorboard] entry-point shim

    A shallow embedding of [cmake/external/tensorboard/tensorboard/__main__.py]
    and the properties of its module body: what it binds, what it calls,
    and how results and errors of the collaborator flow through it.

    The module body is straight-line Python over one namespace (the module
    globals), so it is embedded as a computation in a small state-and-error
    monad.  Everything the body cannot see inside (the import system's
    answer for [tensorboard.main], attribute lookup on foreign objects, what
    a call does) is collected in a [world] record the definitions take as
    an argument. *)

From Stdlib Require Import ZArith.
From stdpp Require Import gmap strings list fin_maps.

Local Open Scope string_scope.
Local Open Scope Z_scope.

(** ** Values, exceptions, events *)

(** Python objects as far as the module body can tell them apart.  Modules,
    functions and every other foreign object are [VObj] with their identity;
    the [_Feature] records of [__future__] are named by their feature. *)
Inductive value : Type :=
  | VNone
  | VInt (z : Z)
  | VStr (s : string)
  | VFeature (feature : string)
  | VObj (id : nat).

#[global] Instance value_eq_dec : EqDecision value.
Proof. solve_decision. Defined.

(** Exceptions.  The first three are the ones the statements of the body
    raise themselves; [SystemExit] and [Exn] stand for what foreign code
    raises: a callee, or a module while it is being loaded. *)
Inductive exn : Type :=
  | ImportError (modname name : string)
  | AttributeError (attr : string)
  | NameError (name : string)
  | SystemExit (code : value)
  | Exn (kind : string) (payload : value).

#[global] Instance exn_eq_dec : EqDecision exn.
Proof. solve_decision. Defined.

(** What a call does, as seen by the caller. *)
Inductive call_result : Type :=
  | Returns (v : value)
  | Raises (e : exn).

(** Observable actions of the module body, in the order they happen. *)
Inductive event : Type :=
  | EvImport (modname name : string)
  | EvCall (callee : value) (args : list value).

#[global] Instance event_eq_dec : EqDecision event.
Proof. solve_decision. Defined.

(** The environment the module runs in. *)
Record world : Type := World {
  (** [from modname import name]: the object found, or [None] when the
      module or the name cannot be resolved or loaded. *)
  w_import : string -> string -> option value;
  (** The exception a failed [from modname import name] raises: an
      [ImportError] when the module or the name cannot be resolved, and
      otherwise whatever loading the module raised (an error of its own
      top-level code, an [ImportError] naming a module it needs). *)
  w_import_error : string -> string -> exn;
  (** [obj.attr]: the attribute, or [None] when the object has none. *)
  w_getattr : value -> string -> option value;
  (** [callee(args...)], as the caller sees it.  What the callee does
      besides is its own business; the module records the call.  A world
      describes one run: a callee that answers differently at another
      time is another world for that other run. *)
  w_call : value -> list value -> call_result;
  (** The builtins namespace, searched after the module globals. *)
  w_builtins : gmap string value
}.

(** ** Interpreter state and the execution monad *)

Record state : Type := State {
  globals : gmap string value;
  trace : list event
}.

Inductive result (A : Type) : Type :=
  | Ok (a : A)
  | Err (e : exn).
Arguments Ok {A} a.
Arguments Err {A} e.

(** A statement either completes with a value or raises; the state reached
    so far survives a raise. *)
Definition M (A : Type) : Type := state -> result A * state.

#[global] Instance M_ret : MRet M := fun A a s => (Ok a, s).
#[global] Instance M_bind : MBind M := fun A B f m s =>
  match m s with
  | (Ok a, s') => f a s'
  | (Err e, s') => (Err e, s')
  end.

Definition raise {A : Type} (e : exn) : M A := fun s => (Err e, s).

Definition log (ev : event) : M unit := fun s =>
  (Ok tt, {| globals := globals s; trace := trace s ++ [ev] |}).

(** ** The statements the module body is made of *)

Section Statements.
Context (w : world).

(** [STORE_NAME]: [name = v]. *)
Definition store_name (name : string) (v : value) : M unit := fun s =>
  (Ok tt, {| globals := <[name := v]> (globals s); trace := trace s |}).

(** [LOAD_NAME]: module globals first, then builtins, else [NameError]. *)
Definition load_name (name : string) : M value := fun s =>
  match globals s !! name with
  | Some v => (Ok v, s)
  | None =>
      match w_builtins w !! name with
      | Some v => (Ok v, s)
      | None => (Err (NameError name), s)
      end
  end.

(** [DELETE_NAME]: [del name]; deleting an unbound name is a [NameError]. *)
Definition delete_name (name : string) : M unit := fun s =>
  match globals s !! name with
  | Some _ => (Ok tt, {| globals := delete name (globals s); trace := trace s |})
  | None => (Err (NameError name), s)
  end.

(** [from __future__ import feature].  The compiler has checked the
    feature name, so the statement cannot fail; at run time it is an
    import like any other and binds the feature record. *)
Definition future_import (feature : string) : M unit :=
  log (EvImport "__future__" feature) ;;
  store_name feature (VFeature feature).

(** [from modname import name as asname].  The statement has no handler
    around it: a failed import raises what the import system raised. *)
Definition import_from (modname name asname : string) : M unit :=
  log (EvImport modname name) ;;
  match w_import w modname name with
  | Some v => store_name asname v
  | None => raise (w_import_error w modname name)
  end.

(** [obj.attr]. *)
Definition get_attr (obj : value) (attr : string) : M value :=
  match w_getattr w obj attr with
  | Some v => mret v
  | None => raise (AttributeError attr)
  end.

(** [callee(args...)]. *)
Definition call (callee : value) (args : list value) : M value :=
  log (EvCall callee args) ;;
  match w_call w callee args with
  | Returns v => mret v
  | Raises e => raise e
  end.

(** [a == b] on the values of the model: exact for strings, numbers and
    [None]; objects compare by identity. *)
Definition py_eq (a b : value) : bool := bool_decide (a = b).

(** An expression statement evaluates and drops the value. *)
Definition expr_stmt (e : M value) : M unit := e ;; mret tt.

(** ** The module body, statement by statement *)

Definition docstring : string :=
  "Module that allows the user to run `python -m tensorboard`.".

(** [run_main = _main.run_main] *)
Definition bind_run_main : M unit :=
  _main ← load_name "_main";
  run_main ← get_attr _main "run_main";
  store_name "run_main" run_main.

(** [if __name__ == '__main__': run_main()] *)
Definition main_guard : M unit :=
  name ← load_name "__name__";
  if py_eq name (VStr "__main__")
  then expr_stmt (run_main ← load_name "run_main"; call run_main [])
  else mret tt.

Definition module_body : M unit :=
  store_name "__doc__" (VStr docstring) ;;
  future_import "absolute_import" ;;
  future_import "division" ;;
  future_import "print_function" ;;
  import_from "tensorboard" "main" "_main" ;;
  bind_run_main ;;
  delete_name "_main" ;;
  main_guard.

(** Running the module on the namespace the import system prepared. *)
Definition exec_module (g : gmap string value) : result unit * state :=
  module_body {| globals := g; trace := [] |}.

Definition outcome (g : gmap string value) : result unit := (exec_module g).1.
Definition final_globals (g : gmap string value) : gmap string value :=
  globals (exec_module g).2.
Definition final_trace (g : gmap string value) : list event :=
  trace (exec_module g).2.

End Statements.

(** The namespace of a freshly created module called [name]; [python -m]
    runs the file under the name ["__main__"]. *)
Definition fresh_globals (name : string) : gmap string value :=
  {[ "__name__" := VStr name ]}.

(** ** Observations on traces and namespaces *)

Definition is_call (ev : event) : bool :=
  match ev with EvCall _ _ => true | EvImport _ _ => false end.

(** The calls of a trace, in order. *)
Definition calls (tr : list event) : list event := List.filter is_call tr.

(** A name is public unless it starts with an underscore. *)
Definition is_public (name : string) : bool := negb (String.prefix "_" name).

Definition public_names (g : gmap string value) : gset string :=
  filter (fun k => is_public k = true) (dom g).

(** The status the interpreter hands to the operating system when the
    module run as a script ends with [r]: the argument of the C [exit],
    before the operating system keeps the bits it keeps. *)
Definition status_of_value (v : value) : Z :=
  match v with
  | VNone => 0
  | VInt n => n
  | _ => 1
  end.

Definition exit_status (r : result unit) : Z :=
  match r with
  | Ok _ => 0
  | Err (SystemExit code) => status_of_value code
  | Err _ => 1
  end.

(** ** Stub collaborators for concrete runs *)

Definition main_module : value := VObj 1.
Definition entry_point : value := VObj 2.

(** A world in which [tensorboard.main] loads and its [run_main] behaves
    as [behaviour]. *)
Definition stub_world (behaviour : call_result) : world :=
  {| w_import := fun modname name =>
       if bool_decide (modname = "tensorboard" /\ name = "main")
       then Some main_module else None;
     w_import_error := fun modname name => ImportError modname name;
     w_getattr := fun obj attr =>
       if bool_decide (obj = main_module /\ attr = "run_main")
       then Some entry_point else None;
     w_call := fun callee args =>
       if bool_decide (callee = entry_point /\ args = [])
       then behaviour else Raises (Exn "TypeError" VNone);
     w_builtins := {[ "__name__" := VStr "builtins" ]} |}.

(** A world in which [tensorboard.main] cannot be resolved. *)
Definition broken_world : world :=
  {| w_import := fun _ _ => None;
     w_import_error := fun modname name => ImportError modname name;
     w_getattr := fun _ _ => None;
     w_call := fun _ _ => Raises (Exn "TypeError" VNone);
     w_builtins := {[ "__name__" := VStr "builtins" ]} |}.



(** A world that agrees with [stub_world behaviour] on everything the module
    body asks and differs everywhere else. *)
Definition noisy_world (behaviour : call_result) : world :=
  {| w_import := fun modname name =>
       if bool_decide (modname = "tensorboard" /\ name = "main")
       then Some main_module else Some VNone;
     w_import_error := fun _ _ => Exn "RuntimeError" VNone;
     w_getattr := fun obj attr =>
       if bool_decide (obj = main_module /\ attr = "run_main")
       then Some entry_point else Some (VInt 0);
     w_call := fun callee args =>
       if bool_decide (callee = entry_point /\ args = [])
       then behaviour else Returns (VInt 7);
     w_builtins := {[ "__name__" := VStr "builtins"; "len" := VObj 9 ]} |}.

(** ** Reference points for the statements below *)

(** The namespace after the docstring and the three future statements. *)
Definition with_futures (g : gmap string value) : gmap string value :=
  <["print_function" := VFeature "print_function"]>
    (<["division" := VFeature "division"]>
       (<["absolute_import" := VFeature "absolute_import"]>
          (<["__doc__" := VStr docstring]> g))).

(** The namespace of the initialised module: [run_main] bound to [f], the
    intermediate [_main] gone. *)
Definition initialized (g : gmap string value) (f : value) : gmap string value :=
  <["run_main" := f]> (delete "_main" (with_futures g)).

(** The imports every run starts with. *)
Definition prelude : list event :=
  [EvImport "__future__" "absolute_import";
   EvImport "__future__" "division";
   EvImport "__future__" "print_function";
   EvImport "tensorboard" "main"].

(** The names the module body ever assigns or deletes. *)
Definition touched : gset string :=
  {[ "__doc__"; "absolute_import"; "division"; "print_function";
     "_main"; "run_main" ]}.

(** Calling the collaborator's entry point with no shim in between:
    [tensorboard.main.run_main()]. *)
Definition invoke_collaborator_entry (w : world) : M value :=
  match w_import w "tensorboard" "main" with
  | Some m => f ← get_attr w m "run_main"; call w f []
  | None => raise (w_import_error w "tensorboard" "main")
  end.

(** Calling the shim's public name: [run_main()] looked up in the module
    namespace. *)
Definition invoke_shim_run_main (w : world) : M value :=
  run_main ← load_name w "run_main"; call w run_main [].

(** Two worlds that answer alike wherever the module body looks. *)
Definition same_context (w1 w2 : world) : Prop :=
  w_import w1 "tensorboard" "main" = w_import w2 "tensorboard" "main" /\
  (forall m, w_import w1 "tensorboard" "main" = Some m ->
     w_getattr w1 m "run_main" = w_getattr w2 m "run_main") /\
  (forall m f, w_import w1 "tensorboard" "main" = Some m ->
     w_getattr w1 m "run_main" = Some f ->
     w_call w1 f [] = w_call w2 f []) /\
  w_builtins w1 !! "__name__" = w_builtins w2 !! "__name__" /\
  (w_import w1 "tensorboard" "main" = None ->
   w_import_error w1 "tensorboard" "main" =
   w_import_error w2 "tensorboard" "main").

(** The value a name evaluates to in namespace [g]: the lookup of
    [load_name] without the state around it. *)
Definition resolve_name (w : world) (g : gmap string value) (name : string)
    : option value :=
  match g !! name with
  | Some v => Some v
  | None => w_builtins w !! name
  end.

(** The object [_main.run_main] evaluates to, when both the import and the
    attribute lookup succeed. *)
Definition collaborator_entry (w : world) : option value :=
  match w_import w "tensorboard" "main" with
  | Some m => w_getattr w m "run_main"
  | None => None
  end.

(** A world in which [tensorboard.main] loads but has no [run_main]. *)
Definition hollow_world : world :=
  {| w_import := fun modname name =>
       if bool_decide (modname = "tensorboard" /\ name = "main")
       then Some main_module else None;
     w_import_error := fun modname name => ImportError modname name;
     w_getattr := fun _ _ => None;
     w_call := fun _ _ => Raises (Exn "TypeError" VNone);
     w_builtins := {[ "__name__" := VStr "builtins" ]} |}.

(** Unfolds one layer of statements; the lookups that remain are rewritten
    by hand. *)
Ltac run_step :=
  cbv beta iota zeta delta
    [exec_module module_body bind_run_main mbind M_bind mret M_ret store_name
     future_import log import_from load_name get_attr delete_name call
     expr_stmt raise globals trace fst snd].

(** ** Concrete runs *)

Example run_direct :
  exec_module (stub_world (Returns (VInt 3))) (fresh_globals "__main__") =
  (Ok tt, {| globals := initialized (fresh_globals "__main__") entry_point;
             trace := prelude ++ [EvCall entry_point []] |}).
Proof. vm_compute. reflexivity. Qed.

Example run_library :
  exec_module (stub_world (Returns (VInt 3))) (fresh_globals "tensorboard.__main__") =
  (Ok tt, {| globals := initialized (fresh_globals "tensorboard.__main__") entry_point;
             trace := prelude |}).
Proof. vm_compute. reflexivity. Qed.

Example run_raising :
  exec_module (stub_world (Raises (SystemExit (VInt 2)))) (fresh_globals "__main__") =
  (Err (SystemExit (VInt 2)),
   {| globals := initialized (fresh_globals "__main__") entry_point;
      trace := prelude ++ [EvCall entry_point []] |}).
Proof. vm_compute. reflexivity. Qed.

Example run_unresolved :
  exec_module broken_world (fresh_globals "__main__") =
  (Err (ImportError "tensorboard" "main"),
   {| globals := with_futures (fresh_globals "__main__"); trace := prelude |}).
Proof. vm_compute. reflexivity. Qed.

Example run_public_names :
  public_names (initialized (fresh_globals "__main__") entry_point) =
  {[ "absolute_import"; "division"; "print_function"; "run_main" ]}.
Proof. vm_compute. reflexivity. Qed.

(** ** How a run unfolds, case by case *)

Section Runs.
Context (w : world) (g : gmap string value).

Lemma not_touched (k : string) :
  k ∉ touched ->
  "__doc__" ≠ k /\ "absolute_import" ≠ k /\ "division" ≠ k /\
  "print_function" ≠ k /\ "_main" ≠ k /\ "run_main" ≠ k.
Proof.
  unfold touched. rewrite !not_elem_of_union, !not_elem_of_singleton.
  intuition congruence.
Qed.

Lemma with_futures_lookup_ne (k : string) :
  k ∉ touched -> with_futures g !! k = g !! k.
Proof.
  intros (? & ? & ? & ? & ? & ?)%not_touched. unfold with_futures.
  by rewrite !lookup_insert_ne.
Qed.

Lemma name_not_touched : "__name__" ∉ touched.
Proof.
  unfold touched. rewrite !not_elem_of_union, !not_elem_of_singleton.
  repeat split; discriminate.
Qed.

Lemma initialized_lookup_ne (f : value) (k : string) :
  k ∉ touched -> initialized g f !! k = g !! k.
Proof.
  intros Hk. pose proof (not_touched k Hk) as (? & ? & ? & ? & ? & ?).
  unfold initialized.
  rewrite lookup_insert_ne, lookup_delete_ne by done.
  by apply with_futures_lookup_ne.
Qed.

Lemma initialized_name (f : value) :
  initialized g f !! "__name__" = g !! "__name__".
Proof. apply initialized_lookup_ne, name_not_touched. Qed.

Lemma initialized_run_main (f : value) : initialized g f !! "run_main" = Some f.
Proof. unfold initialized. apply lookup_insert_eq. Qed.

Lemma initialized_main_gone (f : value) : initialized g f !! "_main" = None.
Proof.
  unfold initialized. rewrite lookup_insert_ne by done. apply lookup_delete_eq.
Qed.

(** The binding statements, up to and including [del _main]. *)
Lemma delete_after_bind (m f : value) :
  delete "_main" (<["run_main" := f]> (<["_main" := m]> (with_futures g))) =
  initialized g f.
Proof.
  unfold initialized.
  rewrite delete_insert_ne by done. by rewrite delete_insert_eq.
Qed.

Lemma with_futures_run_main : with_futures g !! "run_main" = g !! "run_main".
Proof. unfold with_futures. by rewrite !lookup_insert_ne. Qed.

End Runs.

Section Guard.
Context (w : world) (s : state).

Lemma main_guard_direct (f : value) :
  globals s !! "__name__" = Some (VStr "__main__") ->
  globals s !! "run_main" = Some f ->
  main_guard w s =
  (match w_call w f [] with Returns _ => Ok tt | Raises e => Err e end,
   {| globals := globals s; trace := trace s ++ [EvCall f []] |}).
Proof.
  destruct s as [gs tr]. cbn [globals trace]. intros Hname Hrun.
  unfold main_guard. run_step. rewrite Hname.
  unfold py_eq. rewrite bool_decide_eq_true_2 by reflexivity.
  run_step. rewrite Hrun. by destruct (w_call w f []).
Qed.

Lemma main_guard_library (v : value) :
  globals s !! "__name__" = Some v ->
  v <> VStr "__main__" ->
  main_guard w s = (Ok tt, s).
Proof.
  destruct s as [gs tr]. cbn [globals]. intros Hname Hv.
  unfold main_guard. run_step. rewrite Hname.
  unfold py_eq. by rewrite bool_decide_eq_false_2.
Qed.

(** Whatever the guard does, it assigns nothing. *)
Lemma main_guard_globals : globals (main_guard w s).2 = globals s.
Proof.
  destruct s as [gs tr]. unfold main_guard. run_step.
  destruct (gs !! "__name__") as [v|];
    [|destruct (w_builtins w !! "__name__") as [v|]; [|reflexivity]].
  all: destruct (py_eq v (VStr "__main__")); [|reflexivity].
  all: run_step.
  all: destruct (gs !! "run_main") as [r|];
    [|destruct (w_builtins w !! "run_main") as [r|]; [|reflexivity]].
  all: by destruct (w_call w r []).
Qed.

End Guard.

Lemma main_guard_same_context (w1 w2 : world) (s : state) (r : value) :
  w_builtins w1 !! "__name__" = w_builtins w2 !! "__name__" ->
  globals s !! "run_main" = Some r ->
  w_call w1 r [] = w_call w2 r [] ->
  main_guard w1 s = main_guard w2 s.
Proof.
  destruct s as [gs tr]. cbn [globals].
  intros Hname Hr Hcall. unfold main_guard. run_step.
  rewrite Hname.
  destruct (gs !! "__name__") as [v|];
    [|destruct (w_builtins w2 !! "__name__") as [v|]; [|reflexivity]].
  all: destruct (py_eq v (VStr "__main__")); [|reflexivity].
  all: run_step; rewrite Hr, Hcall; reflexivity.
Qed.

Section Cases.
Context (w : world) (g : gmap string value).

Lemma exec_unresolved :
  w_import w "tensorboard" "main" = None ->
  exec_module w g =
  (Err (w_import_error w "tensorboard" "main"),
   {| globals := with_futures g; trace := prelude |}).
Proof. intros Himp. run_step. rewrite Himp. reflexivity. Qed.

Lemma exec_no_attribute (m : value) :
  w_import w "tensorboard" "main" = Some m ->
  w_getattr w m "run_main" = None ->
  exec_module w g =
  (Err (AttributeError "run_main"),
   {| globals := <["_main" := m]> (with_futures g); trace := prelude |}).
Proof.
  intros Himp Hattr. run_step. rewrite Himp. run_step.
  rewrite lookup_insert_eq, Hattr. reflexivity.
Qed.

Lemma exec_loaded (m f : value) :
  w_import w "tensorboard" "main" = Some m ->
  w_getattr w m "run_main" = Some f ->
  exec_module w g =
  main_guard w {| globals := initialized g f; trace := prelude |}.
Proof.
  intros Himp Hattr. run_step. rewrite Himp. run_step.
  rewrite lookup_insert_eq, Hattr.
  rewrite lookup_insert_ne, lookup_insert_eq by done.
  fold (with_futures g). rewrite delete_after_bind. reflexivity.
Qed.

Lemma final_globals_loaded (m f : value) :
  w_import w "tensorboard" "main" = Some m ->
  w_getattr w m "run_main" = Some f ->
  final_globals w g = initialized g f.
Proof.
  intros Himp Hattr. unfold final_globals.
  rewrite (exec_loaded m f Himp Hattr). apply main_guard_globals.
Qed.

Lemma exec_loaded_direct (m f : value) :
  w_import w "tensorboard" "main" = Some m ->
  w_getattr w m "run_main" = Some f ->
  g !! "__name__" = Some (VStr "__main__") ->
  exec_module w g =
  (match w_call w f [] with Returns _ => Ok tt | Raises e => Err e end,
   {| globals := initialized g f; trace := prelude ++ [EvCall f []] |}).
Proof.
  intros Himp Hattr Hname. rewrite (exec_loaded m f Himp Hattr).
  rewrite (main_guard_direct w _ f); cbn [globals trace].
  - reflexivity.
  - by rewrite initialized_name.
  - apply initialized_run_main.
Qed.

Lemma exec_loaded_library (m f v : value) :
  w_import w "tensorboard" "main" = Some m ->
  w_getattr w m "run_main" = Some f ->
  g !! "__name__" = Some v ->
  v <> VStr "__main__" ->
  exec_module w g =
  (Ok tt, {| globals := initialized g f; trace := prelude |}).
Proof.
  intros Himp Hattr Hname Hv. rewrite (exec_loaded m f Himp Hattr).
  apply (main_guard_library w _ v); cbn [globals]; [|done].
  by rewrite initialized_name.
Qed.

End Cases.

(** ** Direct execution *)

(** C1.  When the module is the direct execution target ([__name__] is
    ["__main__"]) and the collaborator loads, the forwarded [run_main] is
    called exactly once, with no arguments: the calls of the run are the
    single call [run_main()] on the object the collaborator provides. *)
Theorem direct_execution_calls_run_main_once
    (w : world) (g : gmap string value) (m f : value) :
  w_import w "tensorboard" "main" = Some m ->
  w_getattr w m "run_main" = Some f ->
  g !! "__name__" = Some (VStr "__main__") ->
  calls (final_trace w g) = [EvCall f []].
Proof.
  intros Himp Hattr Hname. unfold final_trace.
  rewrite (exec_loaded_direct w g m f Himp Hattr Hname). reflexivity.
Qed.

Lemma direct_execution_calls_run_main_once_witness :
  calls (final_trace (stub_world (Returns VNone)) (fresh_globals "__main__")) =
  [EvCall entry_point []].
Proof.
  apply (direct_execution_calls_run_main_once
           (stub_world (Returns VNone)) (fresh_globals "__main__")
           main_module entry_point); reflexivity.
Defined.

(** C3.  Every error [E] raised by [run_main] during direct execution is
    the outcome of the module, the same [E]: after the single call nothing
    is caught, wrapped, retried or swallowed. *)
Theorem run_main_error_propagates
    (w : world) (g : gmap string value) (m f : value) (E : exn) :
  w_import w "tensorboard" "main" = Some m ->
  w_getattr w m "run_main" = Some f ->
  g !! "__name__" = Some (VStr "__main__") ->
  w_call w f [] = Raises E ->
  outcome w g = Err E /\
  final_trace w g = (prelude ++ [EvCall f []])%list.
Proof.
  intros Himp Hattr Hname Hcall. unfold outcome, final_trace.
  rewrite (exec_loaded_direct w g m f Himp Hattr Hname), Hcall. done.
Qed.

Lemma run_main_error_propagates_witness :
  outcome (stub_world (Raises (Exn "ValueError" (VStr "boom"))))
          (fresh_globals "__main__") = Err (Exn "ValueError" (VStr "boom")) /\
  final_trace (stub_world (Raises (Exn "ValueError" (VStr "boom"))))
              (fresh_globals "__main__") = (prelude ++ [EvCall entry_point []])%list.
Proof.
  apply (run_main_error_propagates
           (stub_world (Raises (Exn "ValueError" (VStr "boom"))))
           (fresh_globals "__main__") main_module entry_point); reflexivity.
Defined.

(** C4, as stated, fails: [run_main] returns 3, the process exits with
    status 0. *)
Lemma returned_value_is_not_exit_status :
  w_call (stub_world (Returns (VInt 3))) entry_point [] = Returns (VInt 3) /\
  exit_status (outcome (stub_world (Returns (VInt 3))) (fresh_globals "__main__"))
  <> status_of_value (VInt 3).
Proof. split; [reflexivity|]. vm_compute. discriminate. Qed.

(** C4, amended.  For every value [V] returned by [run_main] under direct
    execution the call is an expression statement: [V] is neither inspected
    nor transformed, it is dropped.  The module completes normally, the
    exit status is 0, and the final namespace and trace do not depend on
    [V]. *)
Theorem returned_value_is_discarded
    (w : world) (g : gmap string value) (m f V : value) :
  w_import w "tensorboard" "main" = Some m ->
  w_getattr w m "run_main" = Some f ->
  g !! "__name__" = Some (VStr "__main__") ->
  w_call w f [] = Returns V ->
  outcome w g = Ok tt /\
  exit_status (outcome w g) = 0 /\
  final_globals w g = initialized g f /\
  final_trace w g = (prelude ++ [EvCall f []])%list.
Proof.
  intros Himp Hattr Hname Hcall. unfold outcome, final_globals, final_trace.
  rewrite (exec_loaded_direct w g m f Himp Hattr Hname), Hcall. done.
Qed.

Lemma returned_value_is_discarded_witness :
  outcome (stub_world (Returns (VInt 3))) (fresh_globals "__main__") = Ok tt /\
  exit_status (outcome (stub_world (Returns (VInt 3))) (fresh_globals "__main__")) = 0 /\
  final_globals (stub_world (Returns (VInt 3))) (fresh_globals "__main__") =
    initialized (fresh_globals "__main__") entry_point /\
  final_trace (stub_world (Returns (VInt 3))) (fresh_globals "__main__") =
    (prelude ++ [EvCall entry_point []])%list.
Proof.
  apply (returned_value_is_discarded
           (stub_world (Returns (VInt 3))) (fresh_globals "__main__")
           main_module entry_point (VInt 3)); reflexivity.
Defined.

(** ** Import as a library *)

(** C2, as stated, fails: after a library import the namespace is not the
    initial one with [run_main] added. *)
Lemma library_import_binds_more_than_run_main :
  ~ (calls (final_trace (stub_world (Returns VNone))
                        (fresh_globals "tensorboard.__main__")) = [] /\
     final_globals (stub_world (Returns VNone))
                   (fresh_globals "tensorboard.__main__") =
     <["run_main" := entry_point]> (fresh_globals "tensorboard.__main__")).
Proof.
  intros [_ H]. apply (f_equal (fun ns => ns !! "division")) in H.
  vm_compute in H. discriminate.
Qed.

(** C2, amended.  When the module is imported as a library ([__name__] is
    not ["__main__"]) and the collaborator loads, [run_main] is never
    called and the module completes normally.  The only events are the four
    imports, and the namespace changes at the names the body assigns only:
    [__doc__], the three [__future__] features and [run_main] are bound,
    [_main] is unbound, every other name keeps its value. *)
Theorem library_import_frame
    (w : world) (g : gmap string value) (m f v : value) :
  w_import w "tensorboard" "main" = Some m ->
  w_getattr w m "run_main" = Some f ->
  g !! "__name__" = Some v ->
  v <> VStr "__main__" ->
  outcome w g = Ok tt /\
  calls (final_trace w g) = [] /\
  final_trace w g = prelude /\
  final_globals w g = initialized g f /\
  (forall k, k ∉ touched -> final_globals w g !! k = g !! k).
Proof.
  intros Himp Hattr Hname Hv. unfold outcome, final_globals, final_trace.
  rewrite (exec_loaded_library w g m f v Himp Hattr Hname Hv).
  cbn [fst snd globals trace]. repeat split.
  intros k Hk. by apply initialized_lookup_ne.
Qed.

Lemma library_import_frame_witness :
  outcome (stub_world (Returns VNone)) (fresh_globals "tensorboard.__main__") = Ok tt /\
  calls (final_trace (stub_world (Returns VNone))
                     (fresh_globals "tensorboard.__main__")) = [] /\
  final_trace (stub_world (Returns VNone)) (fresh_globals "tensorboard.__main__") =
    prelude /\
  final_globals (stub_world (Returns VNone)) (fresh_globals "tensorboard.__main__") =
    initialized (fresh_globals "tensorboard.__main__") entry_point /\
  (forall k, k ∉ touched ->
     final_globals (stub_world (Returns VNone))
                   (fresh_globals "tensorboard.__main__") !! k =
     fresh_globals "tensorboard.__main__" !! k).
Proof.
  apply (library_import_frame
           (stub_world (Returns VNone)) (fresh_globals "tensorboard.__main__")
           main_module entry_point (VStr "tensorboard.__main__"));
    [reflexivity | reflexivity | reflexivity | discriminate].
Defined.

(** ** The initialised namespace *)

Section Namespace.
Context (g : gmap string value) (f : value).

Lemma initialized_doc : initialized g f !! "__doc__" = Some (VStr docstring).
Proof.
  unfold initialized, with_futures.
  rewrite lookup_insert_ne, lookup_delete_ne by done.
  rewrite !lookup_insert_ne by done. apply lookup_insert_eq.
Qed.

Lemma initialized_absolute_import :
  initialized g f !! "absolute_import" = Some (VFeature "absolute_import").
Proof.
  unfold initialized, with_futures.
  rewrite lookup_insert_ne, lookup_delete_ne by done.
  rewrite !lookup_insert_ne by done. apply lookup_insert_eq.
Qed.

Lemma initialized_division :
  initialized g f !! "division" = Some (VFeature "division").
Proof.
  unfold initialized, with_futures.
  rewrite lookup_insert_ne, lookup_delete_ne by done.
  rewrite !lookup_insert_ne by done. apply lookup_insert_eq.
Qed.

Lemma initialized_print_function :
  initialized g f !! "print_function" = Some (VFeature "print_function").
Proof.
  unfold initialized, with_futures.
  rewrite lookup_insert_ne, lookup_delete_ne by done.
  apply lookup_insert_eq.
Qed.

Lemma elem_of_touched (k : string) :
  k ∈ touched <->
  k = "__doc__" \/ k = "absolute_import" \/ k = "division" \/
  k = "print_function" \/ k = "_main" \/ k = "run_main".
Proof.
  unfold touched. rewrite !elem_of_union, !elem_of_singleton. tauto.
Qed.

Lemma elem_of_public_names (ns : gmap string value) (k : string) :
  k ∈ public_names ns <-> is_public k = true /\ is_Some (ns !! k).
Proof. unfold public_names. by rewrite elem_of_filter, elem_of_dom. Qed.

Lemma public_names_initialized :
  public_names g = ∅ ->
  public_names (initialized g f) =
  {[ "absolute_import"; "division"; "print_function"; "run_main" ]}.
Proof.
  intros Hg. apply set_eq. intros k.
  rewrite elem_of_public_names, !elem_of_union, !elem_of_singleton.
  destruct (decide (k ∈ touched)) as [Hk|Hk].
  - apply elem_of_touched in Hk.
    destruct Hk as [-> | [-> | [-> | [-> | [-> | ->]]]]].
    + split; [intros [? _]; discriminate | intros [[[?|?]|?]|?]; discriminate].
    + rewrite initialized_absolute_import. split; [tauto | eauto].
    + rewrite initialized_division. split; [tauto | eauto].
    + rewrite initialized_print_function. split; [tauto | eauto].
    + split; [intros [? _]; discriminate | intros [[[?|?]|?]|?]; discriminate].
    + rewrite initialized_run_main. split; [tauto | eauto].
  - rewrite initialized_lookup_ne by done. split.
    + intros Hpub. apply elem_of_public_names in Hpub.
      rewrite Hg in Hpub. by apply not_elem_of_empty in Hpub.
    + intros Hin. exfalso. apply Hk, elem_of_touched. tauto.
Qed.

End Namespace.

(** C7, as stated, fails: a library import leaves four public names in the
    module, not one. *)
Lemma more_than_one_public_name :
  public_names (final_globals (stub_world (Returns VNone))
                              (fresh_globals "tensorboard.__main__"))
  <> {[ "run_main" ]}.
Proof.
  intros H.
  assert (Hin : "division" ∈
            public_names (final_globals (stub_world (Returns VNone))
                                        (fresh_globals "tensorboard.__main__"))).
  { apply elem_of_public_names. split; [reflexivity|]. vm_compute. eauto. }
  rewrite H in Hin. apply elem_of_singleton in Hin. discriminate.
Qed.

(** C7, amended.  Importing the module into a namespace without public
    names leaves exactly four: the forwarded callable, under the name
    [run_main] it is called by in the guard, and the three [__future__]
    features [absolute_import], [division] and [print_function].  [run_main]
    is the only one bound to an object of the collaborator; the
    intermediate [_main] is not among them. *)
Theorem public_names_after_import
    (w : world) (g : gmap string value) (m f : value) :
  w_import w "tensorboard" "main" = Some m ->
  w_getattr w m "run_main" = Some f ->
  public_names g = ∅ ->
  public_names (final_globals w g) =
    {[ "absolute_import"; "division"; "print_function"; "run_main" ]} /\
  final_globals w g !! "run_main" = Some f /\
  (forall k, k ∈ public_names (final_globals w g) -> k <> "run_main" ->
     final_globals w g !! k = Some (VFeature k)).
Proof.
  intros Himp Hattr Hg. rewrite (final_globals_loaded w g m f Himp Hattr).
  rewrite (public_names_initialized g f Hg). split; [reflexivity|].
  split; [apply initialized_run_main|].
  intros k. rewrite !elem_of_union, !elem_of_singleton.
  intros [[[-> | ->] | ->] | ->] Hne.
  - apply initialized_absolute_import.
  - apply initialized_division.
  - apply initialized_print_function.
  - done.
Qed.

Lemma public_names_after_import_witness :
  public_names (final_globals (stub_world (Returns VNone))
                              (fresh_globals "tensorboard.__main__")) =
    {[ "absolute_import"; "division"; "print_function"; "run_main" ]} /\
  final_globals (stub_world (Returns VNone))
                (fresh_globals "tensorboard.__main__") !! "run_main" =
    Some entry_point /\
  (forall k,
     k ∈ public_names (final_globals (stub_world (Returns VNone))
                                     (fresh_globals "tensorboard.__main__")) ->
     k <> "run_main" ->
     final_globals (stub_world (Returns VNone))
                   (fresh_globals "tensorboard.__main__") !! k =
     Some (VFeature k)).
Proof.
  apply (public_names_after_import
           (stub_world (Returns VNone)) (fresh_globals "tensorboard.__main__")
           main_module entry_point);
    [reflexivity | reflexivity | vm_compute; reflexivity].
Defined.

(** C5.  After module initialisation the intermediate name [_main] is
    unbound and no name of the module refers to the collaborator's module
    object (given that the namespace did not refer to it before and that
    [run_main] is not the module itself); [run_main] is still bound to the
    collaborator's callable, and calling it through the module's name is
    calling that callable. *)
Theorem intermediate_reference_deleted
    (w : world) (g : gmap string value) (mid : nat) (f : value) :
  w_import w "tensorboard" "main" = Some (VObj mid) ->
  w_getattr w (VObj mid) "run_main" = Some f ->
  final_globals w g !! "_main" = None /\
  final_globals w g !! "run_main" = Some f /\
  invoke_shim_run_main w (exec_module w g).2 = call w f [] (exec_module w g).2 /\
  (f <> VObj mid -> (forall k, g !! k <> Some (VObj mid)) ->
   forall k, final_globals w g !! k <> Some (VObj mid)).
Proof.
  intros Himp Hattr.
  pose proof (final_globals_loaded w g _ f Himp Hattr) as Hfin.
  split; [rewrite Hfin; apply initialized_main_gone|].
  split; [rewrite Hfin; apply initialized_run_main|].
  split.
  - unfold final_globals in Hfin. destruct (exec_module w g).2 as [gs tr].
    cbn [globals] in Hfin. subst gs.
    unfold invoke_shim_run_main. run_step.
    rewrite initialized_run_main. reflexivity.
  - intros Hf Hg k. rewrite Hfin.
    destruct (decide (k ∈ touched)) as [Hk|Hk].
    + apply elem_of_touched in Hk.
      destruct Hk as [-> | [-> | [-> | [-> | [-> | ->]]]]].
      * by rewrite initialized_doc.
      * by rewrite initialized_absolute_import.
      * by rewrite initialized_division.
      * by rewrite initialized_print_function.
      * by rewrite initialized_main_gone.
      * rewrite initialized_run_main. congruence.
    + rewrite initialized_lookup_ne by done. apply Hg.
Qed.

Lemma intermediate_reference_deleted_witness :
  final_globals (stub_world (Returns VNone)) (fresh_globals "__main__") !! "_main" =
    None /\
  final_globals (stub_world (Returns VNone)) (fresh_globals "__main__") !! "run_main" =
    Some entry_point /\
  invoke_shim_run_main (stub_world (Returns VNone))
    (exec_module (stub_world (Returns VNone)) (fresh_globals "__main__")).2 =
  call (stub_world (Returns VNone)) entry_point []
    (exec_module (stub_world (Returns VNone)) (fresh_globals "__main__")).2 /\
  (forall k,
     final_globals (stub_world (Returns VNone)) (fresh_globals "__main__") !! k <>
     Some main_module).
Proof.
  destruct (intermediate_reference_deleted
              (stub_world (Returns VNone)) (fresh_globals "__main__")
              1%nat entry_point) as (H1 & H2 & H3 & H4);
    [reflexivity | reflexivity |].
  split; [exact H1|]. split; [exact H2|]. split; [exact H3|].
  apply H4; [discriminate|].
  intros k. unfold fresh_globals.
  destruct (decide (k = "__name__")) as [->|Hk].
  - rewrite lookup_singleton_eq. discriminate.
  - rewrite lookup_singleton_ne by done. discriminate.
Defined.

(** ** Failure to load the collaborator *)




(** C9.  In a namespace that did not bind [run_main] before: if loading
    the collaborator fails, [run_main] is not bound afterwards; and however
    the run ends, [run_main] is bound only to the [run_main] attribute of
    the loaded collaborator. *)
Theorem run_main_never_half_bound
    (w : world) (g : gmap string value) :
  g !! "run_main" = None ->
  (w_import w "tensorboard" "main" = None ->
   final_globals w g !! "run_main" = None) /\
  (forall v, final_globals w g !! "run_main" = Some v ->
     exists m, w_import w "tensorboard" "main" = Some m /\
               w_getattr w m "run_main" = Some v).
Proof.
  intros Hg. split.
  - intros Himp. unfold final_globals. rewrite (exec_unresolved w g Himp).
    cbn [snd globals]. by rewrite with_futures_run_main.
  - intros v. destruct (w_import w "tensorboard" "main") as [m|] eqn:Himp.
    + destruct (w_getattr w m "run_main") as [f|] eqn:Hattr.
      * rewrite (final_globals_loaded w g m f Himp Hattr), initialized_run_main.
        intros [= ->]. eauto.
      * unfold final_globals. rewrite (exec_no_attribute w g m Himp Hattr).
        cbn [snd globals].
        rewrite lookup_insert_ne, with_futures_run_main, Hg by done.
        discriminate.
    + unfold final_globals. rewrite (exec_unresolved w g Himp).
      cbn [snd globals]. rewrite with_futures_run_main, Hg. discriminate.
Qed.

Lemma run_main_never_half_bound_witness :
  (w_import broken_world "tensorboard" "main" = None ->
   final_globals broken_world (fresh_globals "__main__") !! "run_main" = None) /\
  (forall v,
     final_globals broken_world (fresh_globals "__main__") !! "run_main" = Some v ->
     exists m, w_import broken_world "tensorboard" "main" = Some m /\
               w_getattr broken_world m "run_main" = Some v).
Proof.
  apply (run_main_never_half_bound broken_world (fresh_globals "__main__")).
  reflexivity.
Defined.

(** ** The forwarded callable *)

(** C8.  The module's [run_main] is the very object found as the
    [run_main] attribute of the collaborator, and calling it through the
    module's name does what calling [tensorboard.main.run_main()] does:
    same result, same call recorded, nothing in between. *)
Theorem run_main_is_collaborator_entry
    (w : world) (g : gmap string value) (m f : value) :
  w_import w "tensorboard" "main" = Some m ->
  w_getattr w m "run_main" = Some f ->
  final_globals w g !! "run_main" = w_getattr w m "run_main" /\
  invoke_shim_run_main w (exec_module w g).2 =
  invoke_collaborator_entry w (exec_module w g).2.
Proof.
  intros Himp Hattr.
  pose proof (final_globals_loaded w g m f Himp Hattr) as Hfin.
  split; [by rewrite Hfin, initialized_run_main|].
  unfold final_globals in Hfin. destruct (exec_module w g).2 as [gs tr].
  cbn [globals] in Hfin. subst gs.
  unfold invoke_shim_run_main, invoke_collaborator_entry. rewrite Himp.
  run_step. rewrite initialized_run_main, Hattr. reflexivity.
Qed.

Lemma run_main_is_collaborator_entry_witness :
  final_globals (stub_world (Returns (VInt 3))) (fresh_globals "__main__") !! "run_main" =
    w_getattr (stub_world (Returns (VInt 3))) main_module "run_main" /\
  invoke_shim_run_main (stub_world (Returns (VInt 3)))
    (exec_module (stub_world (Returns (VInt 3))) (fresh_globals "__main__")).2 =
  invoke_collaborator_entry (stub_world (Returns (VInt 3)))
    (exec_module (stub_world (Returns (VInt 3))) (fresh_globals "__main__")).2.
Proof.
  apply (run_main_is_collaborator_entry
           (stub_world (Returns (VInt 3))) (fresh_globals "__main__")
           main_module entry_point); reflexivity.
Defined.

(** ** Determinism *)

(** C10.  In a fixed execution context, that is the same initial namespace
    (hence the same [__name__]) and two worlds that resolve the
    collaborator (or fail to, with the same error), its [run_main] and
    the behaviour of [run_main()] alike,
    two runs of the module make the same calls in the same order, end with
    the same outcome and leave the same namespace. *)
Theorem module_execution_deterministic
    (w1 w2 : world) (g : gmap string value) :
  same_context w1 w2 ->
  calls (final_trace w1 g) = calls (final_trace w2 g) /\
  final_globals w1 g = final_globals w2 g /\
  outcome w1 g = outcome w2 g.
Proof.
  intros Hctx. assert (exec_module w1 g = exec_module w2 g) as Heq.
  { pose proof Hctx as (Himp & Hattr & Hcall & Hname & Herr).
    destruct (w_import w2 "tensorboard" "main") as [m|] eqn:Himp2.
    - specialize (Hattr m Himp). specialize (Hcall m).
      destruct (w_getattr w2 m "run_main") as [f|] eqn:Hattr2.
      + rewrite (exec_loaded w1 g m f Himp Hattr).
        rewrite (exec_loaded w2 g m f Himp2 Hattr2).
        apply (main_guard_same_context w1 w2 _ f); [done| |by apply Hcall].
        cbn [globals]. apply initialized_run_main.
      + rewrite (exec_no_attribute w1 g m Himp Hattr).
        by rewrite (exec_no_attribute w2 g m Himp2 Hattr2).
    - rewrite (exec_unresolved w1 g Himp), (Herr Himp).
      by rewrite (exec_unresolved w2 g Himp2). }
  unfold final_trace, final_globals, outcome. by rewrite Heq.
Qed.

Lemma module_execution_deterministic_witness :
  calls (final_trace (stub_world (Returns (VInt 3))) (fresh_globals "__main__")) =
  calls (final_trace (noisy_world (Returns (VInt 3))) (fresh_globals "__main__")) /\
  final_globals (stub_world (Returns (VInt 3))) (fresh_globals "__main__") =
  final_globals (noisy_world (Returns (VInt 3))) (fresh_globals "__main__") /\
  outcome (stub_world (Returns (VInt 3))) (fresh_globals "__main__") =
  outcome (noisy_world (Returns (VInt 3))) (fresh_globals "__main__").
Proof.
  apply (module_execution_deterministic
           (stub_world (Returns (VInt 3))) (noisy_world (Returns (VInt 3)))
           (fresh_globals "__main__")).
  split; [reflexivity|]. split; [|split; [|split; [reflexivity|]]].
  - intros m [= <-]. reflexivity.
  - intros m f [= <-] [= <-]. reflexivity.
  - intros H. vm_compute in H. discriminate.
Defined.


(** ** Every run, whatever the world *)

(** Equalities between namespaces built from the assignments of the body. *)
Ltac namespace_eq :=
  apply map_eq; intros ?; unfold initialized, with_futures;
  repeat (rewrite lookup_insert || rewrite lookup_delete);
  repeat case_decide; subst; done.

Section AllRuns.
Context (w : world) (g : gmap string value).

Lemma with_futures_idemp : with_futures (with_futures g) = with_futures g.
Proof. namespace_eq. Qed.

Lemma with_futures_rebind (m : value) :
  <["_main" := m]> (with_futures (<["_main" := m]> (with_futures g))) =
  <["_main" := m]> (with_futures g).
Proof. namespace_eq. Qed.

Lemma initialized_idemp (f : value) :
  initialized (initialized g f) f = initialized g f.
Proof. namespace_eq. Qed.

Lemma with_futures_insert_name (v : value) :
  with_futures (<["__name__" := v]> g) = <["__name__" := v]> (with_futures g).
Proof. namespace_eq. Qed.

Lemma initialized_insert_name (f v : value) :
  initialized (<["__name__" := v]> g) f = <["__name__" := v]> (initialized g f).
Proof. namespace_eq. Qed.

Lemma resolve_name_initialized (f : value) :
  resolve_name w (initialized g f) "__name__" = resolve_name w g "__name__".
Proof. unfold resolve_name. by rewrite initialized_name. Qed.

(** The guard, evaluated: it depends on what [__name__] resolves to and, in
    the direct case, on what [run_main()] does. *)
Lemma main_guard_eval (s : state) (f : value) :
  globals s !! "run_main" = Some f ->
  main_guard w s =
  match resolve_name w (globals s) "__name__" with
  | None => (Err (NameError "__name__"), s)
  | Some v =>
      if bool_decide (v = VStr "__main__")
      then (match w_call w f [] with Returns _ => Ok tt | Raises e => Err e end,
            {| globals := globals s; trace := trace s ++ [EvCall f []] |})
      else (Ok tt, s)
  end.
Proof.
  destruct s as [gs tr]. cbn [globals trace]. intros Hrun.
  unfold main_guard, resolve_name. run_step.
  destruct (gs !! "__name__") as [v|];
    [|destruct (w_builtins w !! "__name__") as [v|]; [|reflexivity]].
  all: unfold py_eq; case_bool_decide; [|reflexivity].
  all: run_step; rewrite Hrun; by destruct (w_call w f []).
Qed.

Lemma exec_loaded_eval (m f : value) :
  w_import w "tensorboard" "main" = Some m ->
  w_getattr w m "run_main" = Some f ->
  exec_module w g =
  match resolve_name w g "__name__" with
  | None => (Err (NameError "__name__"),
             {| globals := initialized g f; trace := prelude |})
  | Some v =>
      if bool_decide (v = VStr "__main__")
      then (match w_call w f [] with Returns _ => Ok tt | Raises e => Err e end,
            {| globals := initialized g f;
               trace := prelude ++ [EvCall f []] |})
      else (Ok tt, {| globals := initialized g f; trace := prelude |})
  end.
Proof.
  intros Himp Hattr. rewrite (exec_loaded w g m f Himp Hattr).
  rewrite (main_guard_eval _ f) by apply initialized_run_main.
  cbn [globals trace]. by rewrite resolve_name_initialized.
Qed.

End AllRuns.

(** X1.  A collaborator that loads but has no [run_main] attribute makes
    the module fail with [AttributeError] while it is being loaded, before
    any call.  The statement [del _main] is not reached: [_main] stays
    bound to the collaborator's module, and [run_main] keeps whatever
    binding it had before. *)
Theorem missing_run_main_fails_at_load
    (w : world) (g : gmap string value) (m : value) :
  w_import w "tensorboard" "main" = Some m ->
  w_getattr w m "run_main" = None ->
  outcome w g = Err (AttributeError "run_main") /\
  calls (final_trace w g) = [] /\
  final_globals w g !! "_main" = Some m /\
  final_globals w g !! "run_main" = g !! "run_main".
Proof.
  intros Himp Hattr. unfold outcome, final_trace, final_globals.
  rewrite (exec_no_attribute w g m Himp Hattr). cbn [fst snd globals trace].
  split; [reflexivity|]. split; [reflexivity|].
  split; [apply lookup_insert_eq|].
  rewrite lookup_insert_ne by done. apply with_futures_run_main.
Qed.

Lemma missing_run_main_fails_at_load_witness :
  outcome hollow_world (fresh_globals "__main__") = Err (AttributeError "run_main") /\
  calls (final_trace hollow_world (fresh_globals "__main__")) = [] /\
  final_globals hollow_world (fresh_globals "__main__") !! "_main" = Some main_module /\
  final_globals hollow_world (fresh_globals "__main__") !! "run_main" =
    fresh_globals "__main__" !! "run_main".
Proof.
  apply (missing_run_main_fails_at_load
           hollow_world (fresh_globals "__main__") main_module); reflexivity.
Defined.

(** X2.  The events of every run, in every world and from every namespace,
    are the four imports in source order, followed by at most one call;
    that call, if any, is the collaborator's [run_main] with no
    arguments. *)
Theorem trace_is_imports_then_at_most_one_call
    (w : world) (g : gmap string value) :
  final_trace w g = prelude \/
  exists f, collaborator_entry w = Some f /\
            final_trace w g = (prelude ++ [EvCall f []])%list.
Proof.
  unfold final_trace, collaborator_entry.
  destruct (w_import w "tensorboard" "main") as [m|] eqn:Himp.
  - destruct (w_getattr w m "run_main") as [f|] eqn:Hattr.
    + rewrite (exec_loaded_eval w g m f Himp Hattr).
      destruct (resolve_name w g "__name__") as [v|]; [|by left].
      case_bool_decide; [|by left]. right. by exists f.
    + rewrite (exec_no_attribute w g m Himp Hattr). by left.
  - rewrite (exec_unresolved w g Himp). by left.
Qed.

(** X3.  [run_main] is called if and only if the collaborator provides it
    and [__name__] (looked up in the module namespace, then in builtins)
    is the string ["__main__"]. *)
Theorem run_main_called_iff_direct_and_loaded
    (w : world) (g : gmap string value) :
  calls (final_trace w g) <> [] <->
  is_Some (collaborator_entry w) /\
  resolve_name w g "__name__" = Some (VStr "__main__").
Proof.
  unfold final_trace, collaborator_entry.
  destruct (w_import w "tensorboard" "main") as [m|] eqn:Himp.
  - destruct (w_getattr w m "run_main") as [f|] eqn:Hattr.
    + rewrite (exec_loaded_eval w g m f Himp Hattr).
      destruct (resolve_name w g "__name__") as [v|].
      * case_bool_decide as Hv; cbn [snd trace].
        -- subst v. split; [eauto|]. intros _. discriminate.
        -- split; [done|]. intros [_ [= ?]]. done.
      * split; [done|]. intros [_ ?]. discriminate.
    + rewrite (exec_no_attribute w g m Himp Hattr).
      split; [done|]. intros [[? ?] _]. discriminate.
  - rewrite (exec_unresolved w g Himp).
    split; [done|]. intros [[? ?] _]. discriminate.
Qed.

(** X4.  The errors a run can end with are four, each with its cause: the
    error the import of the collaborator raised when it failed, the
    attribute error when the collaborator has no [run_main], the name
    error when [__name__] resolves nowhere, and otherwise the error that
    [run_main()] itself raised under direct execution. *)
Theorem error_taxonomy
    (w : world) (g : gmap string value) (e : exn) :
  outcome w g = Err e ->
  (w_import w "tensorboard" "main" = None /\
   e = w_import_error w "tensorboard" "main") \/
  (exists m, w_import w "tensorboard" "main" = Some m /\
             w_getattr w m "run_main" = None /\
             e = AttributeError "run_main") \/
  (is_Some (collaborator_entry w) /\
   resolve_name w g "__name__" = None /\
   e = NameError "__name__") \/
  (exists f, collaborator_entry w = Some f /\
             resolve_name w g "__name__" = Some (VStr "__main__") /\
             w_call w f [] = Raises e).
Proof.
  unfold outcome, collaborator_entry.
  destruct (w_import w "tensorboard" "main") as [m|] eqn:Himp.
  - destruct (w_getattr w m "run_main") as [f|] eqn:Hattr.
    + rewrite (exec_loaded_eval w g m f Himp Hattr).
      destruct (resolve_name w g "__name__") as [v|].
      * case_bool_decide as Hv; cbn [fst]; [|discriminate].
        subst v. destruct (w_call w f []) as [r|e'] eqn:Hcall; [discriminate|].
        intros [= ->]. right. right. right. by exists f.
      * intros [= <-]. right. right. left. eauto.
    + rewrite (exec_no_attribute w g m Himp Hattr).
      intros [= <-]. right. left. by exists m.
  - rewrite (exec_unresolved w g Himp). intros [= <-]. by left.
Qed.

Lemma error_taxonomy_witness :
  (w_import (stub_world (Raises (SystemExit (VInt 2)))) "tensorboard" "main" = None /\
   SystemExit (VInt 2) =
   w_import_error (stub_world (Raises (SystemExit (VInt 2)))) "tensorboard" "main") \/
  (exists m,
     w_import (stub_world (Raises (SystemExit (VInt 2)))) "tensorboard" "main" = Some m /\
     w_getattr (stub_world (Raises (SystemExit (VInt 2)))) m "run_main" = None /\
     SystemExit (VInt 2) = AttributeError "run_main") \/
  (is_Some (collaborator_entry (stub_world (Raises (SystemExit (VInt 2))))) /\
   resolve_name (stub_world (Raises (SystemExit (VInt 2))))
                (fresh_globals "__main__") "__name__" = None /\
   SystemExit (VInt 2) = NameError "__name__") \/
  (exists f,
     collaborator_entry (stub_world (Raises (SystemExit (VInt 2)))) = Some f /\
     resolve_name (stub_world (Raises (SystemExit (VInt 2))))
                  (fresh_globals "__main__") "__name__" = Some (VStr "__main__") /\
     w_call (stub_world (Raises (SystemExit (VInt 2)))) f [] =
       Raises (SystemExit (VInt 2))).
Proof.
  apply (error_taxonomy (stub_world (Raises (SystemExit (VInt 2))))
                        (fresh_globals "__main__") (SystemExit (VInt 2))).
  reflexivity.
Defined.

(** X5.  Executing the module body again in the namespace a run left
    behind (a reload) leaves that namespace as it is, provided the
    collaborator resolves as it did in the first run (the same module or
    the same failure, the same [run_main] attribute).  What [run_main()]
    does in either run, and what error a failed import raises, may differ
    between the two runs. *)
Theorem reload_leaves_namespace
    (w1 w2 : world) (g : gmap string value) :
  w_import w1 "tensorboard" "main" = w_import w2 "tensorboard" "main" ->
  (forall m, w_import w1 "tensorboard" "main" = Some m ->
     w_getattr w1 m "run_main" = w_getattr w2 m "run_main") ->
  final_globals w2 (final_globals w1 g) = final_globals w1 g.
Proof.
  intros Himp Hattr.
  destruct (w_import w2 "tensorboard" "main") as [m|] eqn:Himp2.
  - specialize (Hattr m Himp).
    destruct (w_getattr w2 m "run_main") as [f|] eqn:Hattr2.
    + rewrite (final_globals_loaded w1 g m f Himp Hattr).
      rewrite (final_globals_loaded w2 _ m f Himp2 Hattr2).
      apply initialized_idemp.
    + unfold final_globals.
      rewrite (exec_no_attribute w1 g m Himp Hattr). cbn [snd globals].
      rewrite (exec_no_attribute w2 _ m Himp2 Hattr2). cbn [snd globals].
      apply with_futures_rebind.
  - unfold final_globals.
    rewrite (exec_unresolved w1 g Himp). cbn [snd globals].
    rewrite (exec_unresolved w2 _ Himp2). cbn [snd globals].
    apply with_futures_idemp.
Qed.

Lemma reload_leaves_namespace_witness :
  final_globals (noisy_world (Raises (SystemExit (VInt 1))))
    (final_globals (stub_world (Returns VNone)) (fresh_globals "__main__")) =
  final_globals (stub_world (Returns VNone)) (fresh_globals "__main__").
Proof.
  apply (reload_leaves_namespace
           (stub_world (Returns VNone))
           (noisy_world (Raises (SystemExit (VInt 1))))
           (fresh_globals "__main__")).
  - reflexivity.
  - intros m [= <-]. reflexivity.
Defined.

(** X6.  The bindings do not depend on the execution mode: giving the
    initial namespace another [__name__] changes the final namespace at
    [__name__] and nowhere else, so a direct run and a library import bind
    the same names to the same objects. *)
Theorem bindings_independent_of_mode
    (w : world) (g : gmap string value) (v : value) :
  final_globals w (<["__name__" := v]> g) =
  <["__name__" := v]> (final_globals w g).
Proof.
  destruct (w_import w "tensorboard" "main") as [m|] eqn:Himp.
  - destruct (w_getattr w m "run_main") as [f|] eqn:Hattr.
    + rewrite !(final_globals_loaded w _ m f Himp Hattr).
      apply initialized_insert_name.
    + unfold final_globals. rewrite !(exec_no_attribute w _ m Himp Hattr).
      cbn [snd globals]. rewrite with_futures_insert_name.
      by apply insert_insert_ne.
  - unfold final_globals. rewrite !(exec_unresolved w _ Himp).
    cbn [snd globals]. apply with_futures_insert_name.
Qed.

(** X7.  No run, successful or failed, assigns or deletes a name other
    than [__doc__], the three features, [_main] and [run_main]: every other
    name of the namespace, [__name__] included, keeps its value. *)
Theorem untouched_names_keep_their_value
    (w : world) (g : gmap string value) (k : string) :
  k ∉ touched ->
  final_globals w g !! k = g !! k.
Proof.
  intros Hk.
  destruct (w_import w "tensorboard" "main") as [m|] eqn:Himp.
  - destruct (w_getattr w m "run_main") as [f|] eqn:Hattr.
    + rewrite (final_globals_loaded w g m f Himp Hattr).
      by apply initialized_lookup_ne.
    + unfold final_globals. rewrite (exec_no_attribute w g m Himp Hattr).
      cbn [snd globals].
      pose proof (not_touched k Hk) as (_ & _ & _ & _ & ? & _).
      rewrite lookup_insert_ne by done. by apply with_futures_lookup_ne.
  - unfold final_globals. rewrite (exec_unresolved w g Himp).
    cbn [snd globals]. by apply with_futures_lookup_ne.
Qed.

Lemma untouched_names_keep_their_value_witness :
  final_globals (stub_world (Raises (SystemExit (VInt 2))))
                (fresh_globals "__main__") !! "__name__" =
  fresh_globals "__main__" !! "__name__".
Proof.
  apply (untouched_names_keep_their_value
           (stub_world (Raises (SystemExit (VInt 2))))
           (fresh_globals "__main__") "__name__").
  intros H. vm_compute in H. discriminate.
Defined.
